(** * aaru: the moon-picture upload server (script.js)

    A shallow embedding of [script.js], an Express application with one
    business route, [POST /upload]: multer stages the uploaded image in the
    temporary directory, the handler sends it to the Gemini file store,
    deletes the temporary file, asks the model whether the picture shows the
    moon and answers with a birthday page or a redirect.

    The program is effectful; it is embedded as a state-and-exception monad
    over a [World] (the files on disk, the process-wide configuration
    object and the trace of observable operations).  The third-party
    services it talks to (the Gemini SDK, the file system, multer's name
    generator) are an [Env] of oracle functions, so every statement is
    quantified over all their behaviours. *)

From stdpp Require Import gmap strings list pretty.
From Stdlib Require Import ZArith QArith String Ascii.

Local Open Scope Z_scope.

(** ** JavaScript strings

    Strings are byte strings (UTF-8).  [toLowerCase] acts on the ASCII
    letters and leaves every other byte alone: no character outside ASCII
    lower-cases to one of the ASCII letters [y], [e], [s], so the test
    [includes('yes')] of the handler is not affected. *)

Definition lower_ascii (c : ascii) : ascii :=
  let n := nat_of_ascii c in
  if ((65 <=? n) && (n <=? 90))%nat then ascii_of_nat (n + 32) else c.

Fixpoint toLowerCase (s : string) : string :=
  match s with
  | EmptyString => EmptyString
  | String c s' => String (lower_ascii c) (toLowerCase s')
  end.

(** [s.startsWith(p)] *)
Definition startsWith (s p : string) : bool := String.prefix p s.

(** [s.includes(t)]: [t] occurs somewhere in [s]. *)
Fixpoint includes (s t : string) : bool :=
  if String.prefix t s then true
  else match s with
       | EmptyString => false
       | String _ s' => includes s' t
       end.

(** [t] is a substring of [s]. *)
Definition contains (s t : string) : Prop := exists a b, s = a +:+ t +:+ b.

Definition nl : string := String "010"%char EmptyString.
Definition dq : string := String "034"%char EmptyString.

(** Lines of a template literal, joined by the line feeds between them. *)
Fixpoint unlines (ls : list string) : string :=
  match ls with
  | [] => EmptyString
  | [l] => l
  | l :: ls' => l +:+ nl +:+ unlines ls'
  end.

(** [path.join(dir, name)] for a directory and a plain file name, and
    [path.basename(p)], the part of [p] after its last separator. *)
Definition path_join (dir name : string) : string := dir +:+ "/" +:+ name.

Definition is_sep (c : ascii) : bool := Ascii.eqb c "/"%char.

Fixpoint drop_seps (l : list ascii) : list ascii :=
  match l with
  | c :: l' => if is_sep c then drop_seps l' else l
  | [] => []
  end.

Fixpoint take_segment (l : list ascii) : list ascii :=
  match l with
  | c :: l' => if is_sep c then [] else c :: take_segment l'
  | [] => []
  end.

(** Read from the end: skip the trailing separators, keep the characters
    up to the next separator. *)
Definition basename (p : string) : string :=
  string_of_list_ascii
    (rev (take_segment (drop_seps (rev (list_ascii_of_string p))))).

(** ** JavaScript values that the program handles *)

(** An [Error] object: every throw site the handler can reach (the SDK,
    [fs], multer, a property read on [undefined]) throws an [Error] with a
    string [message]. *)
Record JsError := mkError { err_name : string; message : string }.

(** [process.env.PORT || 3000] is a string or a number. *)
Inductive JsValue :=
| JsString (s : string)
| JsNumber (n : Z).

(** Conversion by a template literal [`${v}`]. *)
Definition toString (v : JsValue) : string :=
  match v with
  | JsString s => s
  | JsNumber n => pretty n
  end.

(** [new Error(msg)] and the [TypeError] V8 raises for [undefined.prop]. *)
Definition Error (msg : string) : JsError := mkError "Error" msg.

Definition TypeError_undefined (prop : string) : JsError :=
  mkError "TypeError"
    ("Cannot read properties of undefined (reading '" +:+ prop +:+ "')").

(** ** Data of the program *)

(** A file part of the multipart body, as multer describes it to
    [fileFilter]; [file_size] is the number of bytes of its content. *)
Record FilePart := mkFilePart {
  originalname : string;
  mimetype : string;
  file_size : Z;
}.

(** [req.file], set by multer once the part is stored: the part's
    description and the [path] of the temporary file. *)
Record ReqFile := mkReqFile {
  part : FilePart;
  path : string;
}.

(** A [POST /upload] request: its [url] (logged by the first middleware)
    and the file part its multipart body carries under the field [image],
    if it carries one.  This is the request of a client that sends at most
    that one file; [Multipart] below is a body with any file parts. *)
Record Request := mkRequest {
  url : string;
  image : option FilePart;
}.

(** The file handle [uploadResult.file] of the Gemini file store. *)
Module RemoteFile.
Record t := mk {
  displayName : string;
  name : string;
  mimeType : string;
  uri : string;
}.
End RemoteFile.
Abbreviation RemoteFile := RemoteFile.t.

(** Number literals are kept as the decimals they are written as; the
    program does no arithmetic on them. *)
Record GenerationConfig := mkGenerationConfig {
  temperature : Q;
  topP : Q;
  topK : Z;
  maxOutputTokens : Z;
  responseMimeType : string;
}.

Record FileData := mkFileData {
  fileData_mimeType : string;
  fileUri : string;
}.

Inductive Part :=
| fileData (fd : FileData)
| text_part (t : string).

Record Content := mkContent {
  role : string;
  parts : list Part;
}.

(** The argument of [model.startChat]. *)
Record StartChatParams := mkStartChatParams {
  chat_generationConfig : GenerationConfig;
  history : list Content;
}.

(** [result.response]: its [text()] returns the reply or throws (a blocked
    or empty candidate). *)
Record GenerateContentResult := mkResult {
  response_text : JsError + string;
}.

(** What the client receives.  [Sent] is [res.status(c).send(body)] (the
    status of a fresh response object is 200); [Redirect] is
    [res.redirect(location)], to which the handler passes a location and
    nothing else; [DefaultError] is the answer of Express's built-in error
    handler, which runs when a middleware passes an error to [next] and
    the application registers no error-handling middleware. *)
Inductive Response :=
| Sent (statusCode : Z) (body : string)
| Redirect (location : string)
| DefaultError (e : JsError).

Definition status_of (r : Response) : Z :=
  match r with
  | Sent c _ => c
  | Redirect _ => 302
  | DefaultError _ => 500
  end.

(** The body the program itself wrote into the response, if any. *)
Definition body_of (r : Response) : option string :=
  match r with
  | Sent _ b => Some b
  | Redirect _ => None
  | DefaultError _ => None
  end.

(** ** The world *)

(** Observable operations, in the order the process performs them. *)
Inductive Event :=
| EvLog (line : string)                          (* console.log *)
| EvError (label : string) (e : JsError)         (* console.error *)
| EvFileFilter (mime : string)                   (* multer calls fileFilter *)
| EvWriteTemp (p : string)                       (* multer stores the part *)
| EvUploadFile (p mime display : string)         (* fileManager.uploadFile *)
| EvUnlink (p : string)                          (* fs.unlink *)
| EvStartChat (params : StartChatParams)         (* model.startChat *)
| EvSendMessage (prompt : string)                (* chatSession.sendMessage *)
| EvRespond (r : Response)                       (* the response is sent *)
| EvListen (port : JsValue).                     (* app.listen *)

(** The process state: the files on [disk], the object bound to
    [generationConfig] (JavaScript objects are mutable, so that it is never
    modified is a property to prove), and the [trace] of operations, each
    with the disk as it was when the operation was issued. *)
Record World := mkWorld {
  disk : gset string;
  config : GenerationConfig;
  trace : list (Event * gset string);
}.

(** The behaviour of everything outside the process during one request. *)
Record Env := mkEnv {
  tmpdir : string;                                (* os.tmpdir() *)
  filename : string;                              (* the name multer draws *)
  uploadFile : string -> string -> string -> JsError + RemoteFile;
  unlink_fault : string -> option JsError;        (* EPERM, EBUSY, ... *)
  sendMessage : StartChatParams -> string -> JsError + GenerateContentResult;
}.

(** ** The monad of asynchronous code: state and exceptions *)

Definition M (A : Type) : Type := World -> (JsError + A) * World.

#[global] Instance M_ret : MRet M := fun A (a : A) w => (inr a, w).

#[global] Instance M_bind : MBind M := fun A B (f : A -> M B) (m : M A) w =>
  match m w with
  | (inl e, w') => (inl e, w')
  | (inr a, w') => f a w'
  end.

Definition throw {A} (e : JsError) : M A := fun w => (inl e, w).

(** [try { body } catch (error) { handler }] *)
Definition try_catch {A} (body : M A) (handler : JsError -> M A) : M A :=
  fun w =>
    match body w with
    | (inl e, w') => handler e w'
    | (inr a, w') => (inr a, w')
    end.

Definition emit (ev : Event) : M unit := fun w =>
  (inr tt, mkWorld (disk w) (config w) (trace w ++ [(ev, disk w)])).

Definition set_disk (f : gset string -> gset string) : M unit := fun w =>
  (inr tt, mkWorld (f (disk w)) (config w) (trace w)).

Definition read_config : M GenerationConfig := fun w => (inr (config w), w).

Definition on_disk (p : string) : M bool := fun w =>
  (inr (bool_decide (p ∈ disk w)), w).

Definition lift {A} (r : JsError + A) : M A :=
  match r with
  | inl e => throw e
  | inr a => mret a
  end.

Definition console_log (line : string) : M unit := emit (EvLog line).
Definition console_error (label : string) (e : JsError) : M unit :=
  emit (EvError label e).

(** ** The file system *)

Definition ENOENT (p : string) : JsError :=
  Error ("ENOENT: no such file or directory, unlink '" +:+ p +:+ "'").

(** [await fs.unlink(p)]: removes the file, or rejects when the file is
    not there or the system refuses. *)
Definition fs_unlink (env : Env) (p : string) : M unit :=
  emit (EvUnlink p);;
  present ← on_disk p;
  if (present : bool) then
    match unlink_fault env p with
    | Some e => throw e
    | None => set_disk (fun d => d ∖ {[ p ]})
    end
  else throw (ENOENT p).

(** ** multer

    The library is a dependency of script.js, not part of it; this is the
    behaviour of its middleware that the program relies on. *)

(** The options given to [multer(...)]; [fileFilter] returns the two
    arguments it passes to its callback [cb]. *)
Record MulterOptions := mkMulter {
  dest : string;
  fileFilter : FilePart -> option JsError * bool;
  limits_fileSize : Z;
}.

(** How the middleware [upload.single('image')] hands over: [next()] with
    [req.file] set or left [undefined], or [next(err)]. *)
Inductive MulterOutcome :=
| Next (file : option ReqFile)
| NextError (e : JsError).

Definition LIMIT_FILE_SIZE : JsError := mkError "MulterError" "File too large".

(** Modelled from the spec: the size check of the multipart layer (multer),
    which is not part of script.js; the file must not exceed
    [limits.fileSize] bytes. *)
Definition within_limit (opts : MulterOptions) (f : FilePart) : bool :=
  (file_size f <=? limits_fileSize opts)%Z.

(** The middleware, for the one file part a request may carry: the filter
    is asked before anything is stored; an error of the filter and a part
    over the limit end in [next(err)] with nothing left on disk (what
    multer had begun to write of an oversized part it removes again); an
    accepted part is stored under a fresh name in [dest]. *)
Definition multer_single (opts : MulterOptions) (env : Env) (req : Request)
  : M MulterOutcome :=
  match image req with
  | None => mret (Next None)
  | Some f =>
      emit (EvFileFilter (mimetype f));;
      match fileFilter opts f with
      | (Some err, _) => mret (NextError err)
      | (None, false) => mret (Next None)
      | (None, true) =>
          if within_limit opts f then
            let p := path_join (dest opts) (filename env) in
            emit (EvWriteTemp p);;
            set_disk (fun d => {[ p ]} ∪ d);;
            mret (Next (Some (mkReqFile f p)))
          else mret (NextError LIMIT_FILE_SIZE)
      end
  end.

(** ** script.js *)

(** [const upload = multer({ dest, fileFilter, limits })] *)
Definition upload (env : Env) : MulterOptions :=
  {| dest := tmpdir env;
     fileFilter := fun file =>
       if startsWith (mimetype file) "image/" then (None, true)
       else (Some (Error "Only image files are allowed!"), false);
     limits_fileSize := (5 * 1024 * 1024)%Z |}.

(** [async function uploadToGemini(filePath, mimeType)] *)
Definition uploadToGemini (env : Env) (filePath mimeType : string)
  : M RemoteFile :=
  try_catch
    (emit (EvUploadFile filePath mimeType (basename filePath));;
     file ← lift (uploadFile env filePath mimeType (basename filePath));
     console_log
       ("Uploaded file " +:+ RemoteFile.displayName file
        +:+ " as: " +:+ RemoteFile.name file);;
     mret file)
    (fun error =>
       console_error "Error uploading to Gemini:" error;;
       throw error).

(** [const generationConfig = { ... }] *)
Definition generationConfig : GenerationConfig :=
  {| temperature := 1;
     topP := 0.95;
     topK := 40;
     maxOutputTokens := 8192;
     responseMimeType := "text/plain" |}.

(** The process as it stands once the module is loaded. *)
Definition boot (files : gset string) : World :=
  mkWorld files generationConfig [].

Definition startChat (params : StartChatParams) : M StartChatParams :=
  emit (EvStartChat params);;
  mret params.

Definition chatSession_sendMessage (env : Env) (session : StartChatParams)
    (prompt : string) : M GenerateContentResult :=
  emit (EvSendMessage prompt);;
  lift (sendMessage env session prompt).

Definition res_send (status : Z) (body : string) : M Response :=
  emit (EvRespond (Sent status body));;
  mret (Sent status body).

Definition res_redirect (location : string) : M Response :=
  emit (EvRespond (Redirect location));;
  mret (Redirect location).

Definition PROMPT : string :=
  "Is this image of the moon? Give answer in yes or no only".

Definition HEADING : string := "Dingdingdingding".

Definition MESSAGE : string :=
  "HAPPY BIRTHDAYYYY MOONPIE!!!! I LOVE YOUUU SO MUCH YOU LITTLE DINGUS 🎀".

(** The template literal passed to [res.send] on a positive answer. *)
Definition page : string :=
  unlines
    [ EmptyString;
      "        <!DOCTYPE html>";
      "        <html lang=" +:+ dq +:+ "en" +:+ dq +:+ ">";
      "        <head>";
      "          <meta charset=" +:+ dq +:+ "UTF-8" +:+ dq +:+ ">";
      "          <meta name=" +:+ dq +:+ "viewport" +:+ dq +:+ " content="
        +:+ dq +:+ "width=device-width, initial-scale=1.0" +:+ dq +:+ ">";
      "          <title>Surprise!!!</title>";
      "          <link rel=" +:+ dq +:+ "stylesheet" +:+ dq +:+ " href="
        +:+ dq +:+ "style.css" +:+ dq +:+ ">";
      "        </head>";
      "        <body>";
      "          <div class=" +:+ dq +:+ "container" +:+ dq +:+ ">";
      "            <h1>" +:+ HEADING +:+ "</h1>";
      "            <p>" +:+ MESSAGE +:+ "</p>";
      "          </div>";
      "        </body>";
      "        </html>";
      "      " ].

Definition INVALID_FILE_TYPE : string :=
  "Invalid file type. Please upload an image.".

Definition PROCESSING_ERROR : string :=
  "An error occurred while processing your image.".

(** [req.file.path]: reading a property of [undefined] throws. *)
Definition req_file (file : option ReqFile) : M ReqFile :=
  match file with
  | Some f => mret f
  | None => throw (TypeError_undefined "path")
  end.

(** The [try] block of the route handler. *)
Definition handler_body (env : Env) (file : option ReqFile) : M Response :=
  f ← req_file file;
  let filePath := path f in
  let mimeType := mimetype (part f) in
  console_log ("Received file: " +:+ originalname (part f)
               +:+ " with MIME type: " +:+ mimeType);;
  uploadedFile ← uploadToGemini env filePath mimeType;
  fs_unlink env filePath;;
  console_log ("Deleted temp file: " +:+ filePath);;
  cfg ← read_config;
  chatSession ← startChat
    {| chat_generationConfig := cfg;
       history :=
         [ {| role := "user";
              parts :=
                [ fileData
                    {| fileData_mimeType := RemoteFile.mimeType uploadedFile;
                       fileUri := RemoteFile.uri uploadedFile |} ] |} ] |};
  result ← chatSession_sendMessage env chatSession PROMPT;
  reply ← lift (response_text result);
  let responseText := toLowerCase reply in
  console_log ("Gemini Response: " +:+ responseText);;
  if includes responseText "yes" then res_send 200 page
  else res_redirect "/".

(** The [catch] block of the route handler. *)
Definition handler_catch (error : JsError) : M Response :=
  console_error "Error processing upload:" error;;
  if includes (message error) "Only image files are allowed"
  then res_send 400 INVALID_FILE_TYPE
  else res_send 500 PROCESSING_ERROR.

(** [async (req, res) => { try { ... } catch (error) { ... } }] *)
Definition handler (env : Env) (file : option ReqFile) : M Response :=
  try_catch (handler_body env file) handler_catch.

(** Express's built-in error handler: the response it sends.  (What it
    writes to the error stream of the process once the response is out is
    not recorded in the trace.) *)
Definition express_default_error (e : JsError) : M Response :=
  emit (EvRespond (DefaultError e));;
  mret (DefaultError e).

(** [POST /upload] through the application: the logging middleware, then
    (the static middleware ignores a POST) the route
    [app.post('/upload', upload.single('image'), handler)].  The handler
    is entered when multer calls [next()], and its [try] encloses its own
    statements only.  When multer calls [next(err)], Express skips the
    handler; the application has no error-handling middleware, so the
    built-in one answers. *)
Definition post_upload (env : Env) (req : Request) : M Response :=
  console_log ("POST " +:+ url req);;
  outcome ← multer_single (upload env) env req;
  match outcome with
  | NextError e => express_default_error e
  | Next file => handler env file
  end.

(** The requests of a process, one after the other, each with the
    behaviour of the outside world while it is served. *)
Fixpoint serve (rs : list (Env * Request)) : M (list Response) :=
  match rs with
  | [] => mret []
  | (env, req) :: rs' =>
      r ← post_upload env req;
      rest ← serve rs';
      mret (r :: rest)
  end.

(** [process.env.PORT || 3000]: the variable when it is set to a non-empty
    string (the only falsy string is the empty one), 3000 otherwise. *)
Definition PORT (env_PORT : option string) : JsValue :=
  match env_PORT with
  | Some EmptyString => JsNumber 3000
  | Some s => JsString s
  | None => JsNumber 3000
  end.

(** [app.listen(PORT, callback)]: the callback runs once the socket is
    bound; [bound] says that this has happened.  What happens when the
    socket cannot be bound is left to Express and is not stated here. *)
Definition listen (env_PORT : option string) (bound : bool) : M unit :=
  emit (EvListen (PORT env_PORT));;
  if bound
  then console_log ("Server running on port " +:+ toString (PORT env_PORT))
  else mret tt.

(** The port a value designates: a number, or a string of decimal
    digits. *)
Definition digit (c : ascii) : option Z :=
  let n := nat_of_ascii c in
  if ((48 <=? n) && (n <=? 57))%nat then Some (Z.of_nat n - 48)%Z else None.

Fixpoint decimal (acc : Z) (s : string) : option Z :=
  match s with
  | EmptyString => Some acc
  | String c s' =>
      match digit c with
      | Some d => decimal (10 * acc + d)%Z s'
      | None => None
      end
  end.

Definition port_number (v : JsValue) : option Z :=
  match v with
  | JsNumber n => Some n
  | JsString EmptyString => None
  | JsString s => decimal 0 s
  end.

(** ** Observations on traces *)

(** The name of the temporary file of a request. *)
Definition staged_path (env : Env) : string :=
  path_join (tmpdir env) (filename env).

(** The steps of a request; logging and the construction of the chat
    session (which calls nothing outside the process) are not steps. *)
Inductive Phase :=
| Validate
| Stage (p : string)
| RemoteUpload (p : string)
| DeleteTemp (p : string)
| ChatCall
| Respond.

Definition phase (ev : Event) : option Phase :=
  match ev with
  | EvFileFilter _ => Some Validate
  | EvWriteTemp p => Some (Stage p)
  | EvUploadFile p _ _ => Some (RemoteUpload p)
  | EvUnlink p => Some (DeleteTemp p)
  | EvSendMessage _ => Some ChatCall
  | EvRespond _ => Some Respond
  | EvLog _ | EvError _ _ | EvStartChat _ | EvListen _ => None
  end.

Definition phases (tr : list (Event * gset string)) : list Phase :=
  omap (fun x => phase x.1) tr.

Definition is_chat (ev : Event) : bool :=
  match ev with
  | EvStartChat _ | EvSendMessage _ => true
  | _ => false
  end.

Definition chat_events (tr : list (Event * gset string)) : list Event :=
  List.filter is_chat (map fst tr).

Definition is_unlink (ev : Event) : bool :=
  match ev with
  | EvUnlink _ => true
  | _ => false
  end.


(** A chat session is started with the configuration [cfg] only. *)
Definition started_with (cfg : GenerationConfig) (x : Event * gset string)
  : Prop :=
  match x.1 with
  | EvStartChat params => chat_generationConfig params = cfg
  | _ => True
  end.

(** The history the handler seeds a chat session with. *)
Definition seeded_history (uploaded : RemoteFile) : list Content :=
  [ mkContent "user"
      [ fileData (mkFileData (RemoteFile.mimeType uploaded)
                             (RemoteFile.uri uploaded)) ] ].

(** The events a request adds to the trace of the world it started in. *)
Definition added (w w' : World) (tr : list (Event * gset string)) : Prop :=
  trace w' = trace w ++ tr.

(** Multer stores the part [f] of the request: it is an image within the
    size limit. *)
Definition staged (env : Env) (req : Request) (f : FilePart) : Prop :=
  image req = Some f /\
  startsWith (mimetype f) "image/" = true /\
  within_limit (upload env) f = true.

(** What [fileManager.uploadFile] answers for the staged file. *)
Definition remote_upload (env : Env) (f : FilePart) : JsError + RemoteFile :=
  uploadFile env (staged_path env) (mimetype f) (basename (staged_path env)).

(** The request reaches the classification step with the reply [reply]:
    multer stored an image, the remote upload and the deletion succeeded,
    and the chat returned [reply] as its text. *)
Definition classified (env : Env) (req : Request) (w : World)
    (uploaded : RemoteFile) (reply : string) : Prop :=
  exists f result,
    staged env req f /\
    remote_upload env f = inr uploaded /\
    unlink_fault env (staged_path env) = None /\
    sendMessage env (mkStartChatParams (config w) (seeded_history uploaded))
      PROMPT = inr result /\
    response_text result = inr reply.

(** ** Sample inputs *)

(** A world in which the file store, the file system and the model all
    answer, the model with [reply]. *)
Definition env_replying (reply : string) : Env :=
  {| tmpdir := "/tmp";
     filename := "3f2a9c";
     uploadFile := fun p mime display =>
       inr (RemoteFile.mk display "files/abc" mime "https://files/abc");
     unlink_fault := fun _ => None;
     sendMessage := fun _ _ => inr (mkResult (inr reply)) |}.

(** A world in which the remote upload fails with [e]. *)
Definition env_upload_failing (e : JsError) : Env :=
  {| tmpdir := "/tmp";
     filename := "3f2a9c";
     uploadFile := fun _ _ _ => inl e;
     unlink_fault := fun _ => None;
     sendMessage := fun _ _ => inr (mkResult (inr "no")) |}.

Definition req_png (bytes : Z) : Request :=
  mkRequest "/upload" (Some (mkFilePart "moon.png" "image/png" bytes)).

Definition req_txt : Request :=
  mkRequest "/upload" (Some (mkFilePart "notes.txt" "text/plain" 12)).

Definition req_empty : Request := mkRequest "/upload" None.

(** ** Further observations *)

(** The text the [catch] block looks for in the message of an error. *)
Definition MARKER : string := "Only image files are allowed".


Definition is_remote (ev : Event) : bool :=
  match ev with
  | EvUploadFile _ _ _ | EvStartChat _ | EvSendMessage _ => true
  | _ => false
  end.

Definition is_uploadFile (ev : Event) : bool :=
  match ev with
  | EvUploadFile _ _ _ => true
  | _ => false
  end.

(** A file name as multer draws them: not empty and without a separator. *)
Definition plain_name (n : string) : Prop :=
  n <> EmptyString /\
  forallb (fun c => negb (is_sep c)) (list_ascii_of_string n) = true.

(** The chat about the uploaded file fails with [e]: [sendMessage]
    rejects, or it resolves and [response.text()] throws. *)
Definition chat_fails (env : Env) (w : World) (uploaded : RemoteFile)
    (e : JsError) : Prop :=
  sendMessage env (mkStartChatParams (config w) (seeded_history uploaded))
    PROMPT = inl e \/
  exists result,
    sendMessage env (mkStartChatParams (config w) (seeded_history uploaded))
      PROMPT = inr result /\
    response_text result = inl e.

(** No error that the file store, the file system or the model can raise
    mentions the marker. *)
Definition marker_free (env : Env) : Prop :=
  (forall p m d e,
     uploadFile env p m d = inl e -> includes (message e) MARKER = false) /\
  (forall p e,
     unlink_fault env p = Some e -> includes (message e) MARKER = false) /\
  (forall params prompt e,
     sendMessage env params prompt = inl e ->
     includes (message e) MARKER = false) /\
  (forall params prompt result e,
     sendMessage env params prompt = inr result ->
     response_text result = inl e ->
     includes (message e) MARKER = false).

(** A world in which [fs.unlink] is refused with [e]. *)
Definition env_unlink_failing (e : JsError) : Env :=
  {| tmpdir := "/tmp";
     filename := "3f2a9c";
     uploadFile := fun p mime display =>
       inr (RemoteFile.mk display "files/abc" mime "https://files/abc");
     unlink_fault := fun _ => Some e;
     sendMessage := fun _ _ => inr (mkResult (inr "yes")) |}.

(** A world in which the model rejects the message with [e]. *)
Definition env_chat_failing (e : JsError) : Env :=
  {| tmpdir := "/tmp";
     filename := "3f2a9c";
     uploadFile := fun p mime display =>
       inr (RemoteFile.mk display "files/abc" mime "https://files/abc");
     unlink_fault := fun _ => None;
     sendMessage := fun _ _ => inl e |}.

(** ** multer on a whole multipart body

    A multipart body may carry any number of file parts, each under a
    form field of its own name.  [upload.single('image')] takes them in
    the order of the body: a part without a file name is no file and is
    passed over; a part under another field, or a second part under
    "image", is an unexpected file; the first error ends the parsing,
    multer removes what it has stored and calls [next(err)]. *)

Record Multipart := mkMultipart {
  body_url : string;
  file_parts : list (string * FilePart);
}.

Definition UNEXPECTED_FIELD : JsError := mkError "MulterError" "Unexpected field".

(** A part counts as a file when it has a file name. *)
Definition has_file_name (f : FilePart) : bool :=
  match originalname f with
  | EmptyString => false
  | String _ _ => true
  end.

(** The parts of the body that are files under the field [field]. *)
Definition files_under (field : string) (m : Multipart)
  : list (string * FilePart) :=
  List.filter (fun x => has_file_name x.2 && String.eqb x.1 field)
    (file_parts m).

(** The body carries no file: each of its file parts, if it has any, is
    without a file name. *)
Definition no_file (m : Multipart) : Prop :=
  Forall (fun x => has_file_name x.2 = false) (file_parts m).

(** The end of the parsing on an error: the file stored so far is
    removed, then [next(err)]. *)
Definition multer_abort (stored : option ReqFile) (err : JsError)
  : M MulterOutcome :=
  match stored with
  | Some file =>
      emit (EvUnlink (path file));;
      set_disk (fun d => d ∖ {[ path file ]});;
      mret (NextError err)
  | None => mret (NextError err)
  end.

(** [filesLeft] is the number of files the field [field] may still take
    (1 at the start, for [single]); [stored] is [req.file] so far. *)
Fixpoint multer_parts (opts : MulterOptions) (env : Env) (field : string)
    (filesLeft : nat) (stored : option ReqFile)
    (ps : list (string * FilePart)) : M MulterOutcome :=
  match ps with
  | [] => mret (Next stored)
  | (fieldname, f) :: rest =>
      if has_file_name f then
        match String.eqb fieldname field, filesLeft with
        | true, S left' =>
            emit (EvFileFilter (mimetype f));;
            match fileFilter opts f with
            | (Some err, _) => multer_abort stored err
            | (None, false) => multer_parts opts env field left' stored rest
            | (None, true) =>
                if within_limit opts f then
                  let p := path_join (dest opts) (filename env) in
                  emit (EvWriteTemp p);;
                  set_disk (fun d => {[ p ]} ∪ d);;
                  multer_parts opts env field left'
                    (Some (mkReqFile f p)) rest
                else multer_abort stored LIMIT_FILE_SIZE
            end
        | _, _ => multer_abort stored UNEXPECTED_FIELD
        end
      else multer_parts opts env field filesLeft stored rest
  end.

(** [POST /upload] with a whole multipart body, through the same
    middleware and handler as [post_upload]. *)
Definition post_upload_body (env : Env) (m : Multipart) : M Response :=
  console_log ("POST " +:+ body_url m);;
  outcome ← multer_parts (upload env) env "image" 1 None (file_parts m);
  match outcome with
  | NextError e => express_default_error e
  | Next file => handler env file
  end.

(** The body of a request that carries at most the part under "image". *)
Definition multipart_of (req : Request) : Multipart :=
  mkMultipart (url req)
    match image req with
    | Some f => [("image", f)]
    | None => []
    end.

(** A body whose only file is under the field "photo". *)
Definition body_photo : Multipart :=
  mkMultipart "/upload" [("photo", mkFilePart "moon.png" "image/png" 1024)].

(** A body with an empty file field, as a browser sends it when no file
    was chosen. *)
Definition body_empty_field : Multipart :=
  mkMultipart "/upload"
    [("image", mkFilePart EmptyString "application/octet-stream" 0)].

(** ** Tactics *)

Ltac run :=
  cbv [post_upload multer_single handler handler_body handler_catch
       uploadToGemini fs_unlink express_default_error req_file
       startChat chatSession_sendMessage res_send res_redirect
       console_log console_error lift on_disk read_config set_disk emit
       try_catch throw mbind mret M_bind M_ret upload fileFilter dest];
  cbn [disk config trace image path part fst snd].

Ltac assoc := repeat (rewrite <- app_assoc; cbn [app]).

Ltac oracle :=
  match goal with
  | |- context [image ?r] => destruct (image r) eqn:?
  | |- context [startsWith ?a ?b] => destruct (startsWith a b) eqn:?
  | |- context [within_limit ?a ?b] => destruct (within_limit a b) eqn:?
  | |- context [uploadFile ?e ?a ?b ?c] => destruct (uploadFile e a b c) eqn:?
  | |- context [bool_decide ?P] => destruct (bool_decide P) eqn:?
  | |- context [unlink_fault ?e ?a] => destruct (unlink_fault e a) eqn:?
  | |- context [sendMessage ?e ?a ?b] => destruct (sendMessage e a b) eqn:?
  | |- context [response_text ?r] => destruct (response_text r) eqn:?
  | |- context [includes ?a ?b] => destruct (includes a b) eqn:?
  end;
  cbn [disk config trace image path part fst snd].

(** * Properties *)

(** ** Strings *)

Lemma append_nil (s : string) : EmptyString +:+ s = s.
Proof. reflexivity. Qed.

Lemma append_cons (c : ascii) (a b : string) :
  String c a +:+ b = String c (a +:+ b).
Proof. reflexivity. Qed.

Lemma prefix_spec (p s : string) :
  String.prefix p s = true <-> exists r, s = p +:+ r.
Proof.
  revert s; induction p as [|a p IH]; intros s.
  - split; [intros _; by exists s | intros _; by destruct s].
  - destruct s as [|b s]; cbn [String.prefix].
    + split; [done | intros [r Hr]; discriminate].
    + destruct (ascii_dec a b) as [->|Hne].
      * etrans; [apply IH|].
        split; intros [r Hr]; exists r; rewrite append_cons in *; congruence.
      * split; [done | intros [r Hr]; rewrite append_cons in Hr; congruence].
Qed.

Lemma includes_here (s t : string) :
  String.prefix t s = true -> includes s t = true.
Proof. intros H; destruct s; cbn [includes]; by rewrite H. Qed.

Lemma includes_later (c : ascii) (s t : string) :
  includes s t = true -> includes (String c s) t = true.
Proof. intros H; cbn [includes]; rewrite H; by case (String.prefix _ _). Qed.

(** [includes] is the substring test. *)
Lemma includes_spec (s t : string) :
  includes s t = true <-> contains s t.
Proof.
  unfold contains. split.
  - induction s as [|c s IH]; cbn [includes].
    + destruct (String.prefix t EmptyString) eqn:E; [|done].
      intros _. apply prefix_spec in E as [r Hr]. by exists EmptyString, r.
    + destruct (String.prefix t (String c s)) eqn:E.
      * intros _. apply prefix_spec in E as [r Hr]. by exists EmptyString, r.
      * intros H. destruct (IH H) as (a & b & ->). by exists (String c a), b.
  - intros (a & b & ->). induction a as [|c a IH].
    + apply includes_here, prefix_spec. by exists b.
    + rewrite append_cons. by apply includes_later.
Qed.

Lemma toLowerCase_length (s : string) :
  String.length (toLowerCase s) = String.length s.
Proof. induction s; simpl; congruence. Qed.

Lemma lower_ascii_idem (c : ascii) : lower_ascii (lower_ascii c) = lower_ascii c.
Proof. destruct c as [[] [] [] [] [] [] [] []]; reflexivity. Qed.

Lemma toLowerCase_idem (s : string) : toLowerCase (toLowerCase s) = toLowerCase s.
Proof. induction s; simpl; [done | by rewrite lower_ascii_idem, IHs]. Qed.

(** ** The multipart layer and the route *)

Lemma upload_limit (env : Env) : limits_fileSize (upload env) = 5242880%Z.
Proof. reflexivity. Qed.

Lemma within_limit_spec (env : Env) (f : FilePart) :
  within_limit (upload env) f = true <-> (file_size f <= 5242880)%Z.
Proof. unfold within_limit. rewrite upload_limit. apply Z.leb_le. Qed.

Section Route.
Variable env : Env.
Variable req : Request.
Variable w : World.

(** An image within the limit is stored and the handler takes over. *)
Lemma post_upload_accept (f : FilePart) :
  image req = Some f ->
  startsWith (mimetype f) "image/" = true ->
  within_limit (upload env) f = true ->
  post_upload env req w =
    handler env (Some (mkReqFile f (staged_path env)))
      (mkWorld ({[ staged_path env ]} ∪ disk w) (config w)
         (trace w ++ [ (EvLog ("POST " +:+ url req), disk w);
                       (EvFileFilter (mimetype f), disk w);
                       (EvWriteTemp (staged_path env), disk w) ])).
Proof.
  intros Hf Hm Hs. unfold post_upload, multer_single.
  rewrite Hf. cbv [upload fileFilter]. rewrite Hm.
  change (within_limit _ f) with (within_limit (upload env) f). rewrite Hs.
  cbv [console_log emit set_disk mbind mret M_bind M_ret dest].
  cbn [disk config trace]. by assoc.
Qed.

(** Anything else than an image: [next(err)] before anything is stored. *)
Lemma post_upload_reject_mime (f : FilePart) :
  image req = Some f ->
  startsWith (mimetype f) "image/" = false ->
  post_upload env req w =
    (inr (DefaultError (Error "Only image files are allowed!")),
     mkWorld (disk w) (config w)
       (trace w ++
          [ (EvLog ("POST " +:+ url req), disk w);
            (EvFileFilter (mimetype f), disk w);
            (EvRespond (DefaultError (Error "Only image files are allowed!")),
             disk w) ])).
Proof.
  intros Hf Hm. run. rewrite Hf, Hm. run. by assoc.
Qed.

(** An image over the limit: [next(err)], nothing stays on disk. *)
Lemma post_upload_reject_size (f : FilePart) :
  image req = Some f ->
  startsWith (mimetype f) "image/" = true ->
  within_limit (upload env) f = false ->
  post_upload env req w =
    (inr (DefaultError LIMIT_FILE_SIZE),
     mkWorld (disk w) (config w)
       (trace w ++ [ (EvLog ("POST " +:+ url req), disk w);
                     (EvFileFilter (mimetype f), disk w);
                     (EvRespond (DefaultError LIMIT_FILE_SIZE), disk w) ])).
Proof.
  intros Hf Hm Hs. unfold post_upload, multer_single.
  rewrite Hf. cbv [upload fileFilter]. rewrite Hm.
  change (within_limit _ f) with (within_limit (upload env) f). rewrite Hs.
  run. by assoc.
Qed.

(** No file part: the handler runs with [req.file] undefined. *)
Lemma post_upload_no_file :
  image req = None ->
  post_upload env req w =
    (inr (Sent 500 PROCESSING_ERROR),
     mkWorld (disk w) (config w)
       (trace w ++
          [ (EvLog ("POST " +:+ url req), disk w);
            (EvError "Error processing upload:" (TypeError_undefined "path"),
             disk w);
            (EvRespond (Sent 500 PROCESSING_ERROR), disk w) ])).
Proof.
  intros Hf. run. rewrite Hf. run.
  change (includes _ _) with false. run. by assoc.
Qed.
End Route.

(** ** Every request is answered, and the configuration is only read *)

Lemma post_upload_shape (env : Env) (req : Request) (w : World) :
  exists r d tr,
    post_upload env req w = (inr r, mkWorld d (config w) (trace w ++ tr)) /\
    Forall (started_with (config w)) tr /\
    last (map fst tr) = Some (EvRespond r).
Proof.
  run. repeat oracle; assoc.
  all: eexists _, _, _; split; [reflexivity|].
  all: split; [repeat constructor | reflexivity].
Qed.

(** ** The handler *)

Lemma staged_on_disk (p : string) (d : gset string) :
  bool_decide (p ∈ {[ p ]} ∪ d) = true.
Proof.
  apply bool_decide_eq_true, elem_of_union. left. by apply elem_of_singleton.
Qed.

(** C1: when a request reaches the classification step, the reply is
    lower-cased and searched for the substring "yes": if it is found the
    response is status 200 with the inline page, which holds the heading
    "Dingdingdingding" and the birthday message; if it is not found,
    whatever else the reply says, the response is a redirect to "/" for
    which the handler writes no body.  "Yes.", "YES" and "yess? no" are
    positive replies. *)
Theorem C1_reply_decides_response
    (env : Env) (req : Request) (w : World) (uploaded : RemoteFile)
    (reply : string) :
  classified env req w uploaded reply ->
  (post_upload env req w).1 =
    inr (if includes (toLowerCase reply) "yes"
         then Sent 200 page else Redirect "/") /\
  (contains (toLowerCase reply) "yes" ->
     (post_upload env req w).1 = inr (Sent 200 page)) /\
  (~ contains (toLowerCase reply) "yes" ->
     (post_upload env req w).1 = inr (Redirect "/")) /\
  (contains page "<h1>Dingdingdingding</h1>" /\
   contains page
     "HAPPY BIRTHDAYYYY MOONPIE!!!! I LOVE YOUUU SO MUCH YOU LITTLE DINGUS 🎀") /\
  (status_of (Sent 200 page) = 200 /\ body_of (Sent 200 page) = Some page) /\
  body_of (Redirect "/") = None /\
  (contains (toLowerCase "Yes.") "yes" /\
   contains (toLowerCase "YES") "yes" /\
   contains (toLowerCase "yess? no") "yes").
Proof.
  intros (f & result & (Hf & Hm & Hs) & Hup & Hun & Hchat & Htxt).
  assert (Hr : (post_upload env req w).1 =
                 inr (if includes (toLowerCase reply) "yes"
                      then Sent 200 page else Redirect "/")).
  { rewrite (post_upload_accept _ _ _ f Hf Hm Hs). run.
    unfold remote_upload in Hup. rewrite Hup. run.
    rewrite staged_on_disk, Hun. run.
    unfold seeded_history in Hchat. rewrite Hchat. run. rewrite Htxt. run.
    by destruct (includes (toLowerCase reply) "yes"). }
  split; [exact Hr|]. split; [|split].
  - intros Hyes%includes_spec. by rewrite Hr, Hyes.
  - intros Hno. rewrite Hr.
    destruct (includes (toLowerCase reply) "yes") eqn:E; [|done].
    by apply includes_spec in E.
  - repeat split; try reflexivity; by apply includes_spec.
Qed.

Lemma C1_witness :
  classified (env_replying "Yes.") (req_png 1024) (boot ∅)
    (RemoteFile.mk "3f2a9c" "files/abc" "image/png" "https://files/abc")
    "Yes." /\
  (post_upload (env_replying "Yes.") (req_png 1024) (boot ∅)).1 =
    inr (Sent 200 page).
Proof.
  assert (H : classified (env_replying "Yes.") (req_png 1024) (boot ∅)
                (RemoteFile.mk "3f2a9c" "files/abc" "image/png"
                   "https://files/abc") "Yes.").
  { do 2 eexists. repeat split; reflexivity. }
  split; [exact H|].
  exact (proj1 (C1_reply_decides_response _ _ _ _ _ H)).
Defined.

(** The [catch] block dispatches on the message of whatever the [try]
    block threw. *)
Lemma try_block_errors_dispatched
    (env : Env) (file : option ReqFile) (w w1 : World) (e : JsError) :
  handler_body env file w = (inl e, w1) ->
  (handler env file w).1 =
    inr (if includes (message e) "Only image files are allowed"
         then Sent 400 INVALID_FILE_TYPE else Sent 500 PROCESSING_ERROR).
Proof.
  intros H. unfold handler, try_catch. rewrite H. run.
  by destruct (includes _ _).
Qed.

(** ** Upload intake *)

(** C2: a part whose declared MIME type does not begin with "image/" is
    rejected by the file filter before anything is written to disk, and a
    part of type image/png passes the filter.  The rejection reaches
    Express through [next(err)], so the route handler and its [catch]
    block never run: for the upload of a text/plain file the response is
    the one of Express's built-in error handler (status 500), not status
    400 with "Invalid file type. Please upload an image.". *)
Theorem C2_text_plain_never_reaches_the_catch (env : Env) (w : World) :
  fileFilter (upload env) (mkFilePart "notes.txt" "text/plain" 12) =
    (Some (Error "Only image files are allowed!"), false) /\
  fileFilter (upload env) (mkFilePart "moon.png" "image/png" 12) =
    (None, true) /\
  post_upload env req_txt w =
    (inr (DefaultError (Error "Only image files are allowed!")),
     mkWorld (disk w) (config w)
       (trace w ++
          [ (EvLog "POST /upload", disk w);
            (EvFileFilter "text/plain", disk w);
            (EvRespond (DefaultError (Error "Only image files are allowed!")),
             disk w) ])) /\
  (post_upload env req_txt w).1 <> inr (Sent 400 INVALID_FILE_TYPE) /\
  status_of (DefaultError (Error "Only image files are allowed!")) = 500.
Proof.
  assert (H := post_upload_reject_mime env req_txt w _ eq_refl eq_refl).
  split; [reflexivity|]. split; [reflexivity|]. split; [exact H|].
  split; [|reflexivity]. rewrite H. discriminate.
Qed.

(** C3: an error raised by upload intake is not caught at the route
    boundary.  For an image of 5,242,881 bytes multer reports "File too
    large" through [next(err)] and Express's built-in error handler
    answers, not the [catch] block with "An error occurred while
    processing your image."; for a text/plain file the error whose message
    contains "Only image files are allowed" is not turned into status
    400. *)
Theorem C3_intake_errors_skip_the_catch (env : Env) (w : World) :
  (post_upload env (req_png 5242881) w).1 = inr (DefaultError LIMIT_FILE_SIZE) /\
  (post_upload env (req_png 5242881) w).1 <> inr (Sent 500 PROCESSING_ERROR) /\
  includes (message (Error "Only image files are allowed!"))
    "Only image files are allowed" = true /\
  (post_upload env req_txt w).1 =
    inr (DefaultError (Error "Only image files are allowed!")) /\
  chat_events (trace (post_upload env (req_png 5242881) w).2) =
    chat_events (trace w).
Proof.
  assert (H := post_upload_reject_size env (req_png 5242881) w _
                 eq_refl eq_refl eq_refl).
  assert (H' := post_upload_reject_mime env req_txt w _ eq_refl eq_refl).
  rewrite H, H'. split; [reflexivity|]. split; [discriminate|].
  split; [reflexivity|]. split; [reflexivity|].
  cbn [snd trace]. unfold chat_events.
  rewrite map_app, List.filter_app. cbn. by rewrite app_nil_r.
Qed.

(** C8: the limit is 5 * 1024 * 1024 = 5,242,880 bytes; a file of exactly
    that size passes the size check, and an image of that size is stored
    and handed to the handler; a file of 5,242,881 bytes makes multer call
    [next(err)], and the request is answered without the handler having
    run. *)
Theorem C8_size_limit (env : Env) (req : Request) (w : World) (f : FilePart) :
  image req = Some f ->
  (limits_fileSize (upload env) = 5242880 /\ 5 * 1024 * 1024 = 5242880) /\
  (file_size f = 5242880 ->
     within_limit (upload env) f = true /\
     (startsWith (mimetype f) "image/" = true ->
        (multer_single (upload env) env req w).1 =
          inr (Next (Some (mkReqFile f (staged_path env)))))) /\
  (file_size f = 5242881 ->
     within_limit (upload env) f = false /\
     exists e,
       (multer_single (upload env) env req w).1 = inr (NextError e) /\
       post_upload env req w =
         (inr (DefaultError e),
          mkWorld (disk w) (config w)
            (trace w ++ [ (EvLog ("POST " +:+ url req), disk w);
                          (EvFileFilter (mimetype f), disk w);
                          (EvRespond (DefaultError e), disk w) ]))).
Proof.
  intros Hf. split; [done|]. split; intros Hsz.
  - assert (Hs : within_limit (upload env) f = true)
      by (apply within_limit_spec; lia).
    split; [done|]. intros Hm.
    unfold multer_single. rewrite Hf. cbv [upload fileFilter]. rewrite Hm.
    change (within_limit _ f) with (within_limit (upload env) f).
    by rewrite Hs.
  - assert (Hs : within_limit (upload env) f = false).
    { apply not_true_is_false. rewrite within_limit_spec. lia. }
    split; [done|].
    destruct (startsWith (mimetype f) "image/") eqn:Hm.
    + exists LIMIT_FILE_SIZE. split.
      * unfold multer_single. rewrite Hf. cbv [upload fileFilter]. rewrite Hm.
        change (within_limit _ f) with (within_limit (upload env) f).
        by rewrite Hs.
      * by apply post_upload_reject_size.
    + exists (Error "Only image files are allowed!"). split.
      * unfold multer_single. rewrite Hf. cbv [upload fileFilter].
        by rewrite Hm.
      * by apply post_upload_reject_mime.
Qed.

Lemma C8_witness :
  within_limit (upload (env_replying "no"))
    (mkFilePart "moon.png" "image/png" 5242880) = true /\
  within_limit (upload (env_replying "no"))
    (mkFilePart "moon.png" "image/png" 5242881) = false.
Proof.
  split.
  - exact (proj1 (proj1 (proj2
      (C8_size_limit (env_replying "no") (req_png 5242880) (boot ∅) _ eq_refl))
      eq_refl)).
  - exact (proj1 (proj2 (proj2
      (C8_size_limit (env_replying "no") (req_png 5242881) (boot ∅) _ eq_refl))
      eq_refl)).
Defined.

(** A body without a file goes through multer untouched. *)
Lemma multer_parts_no_file
    (opts : MulterOptions) (env : Env) (field : string) (filesLeft : nat)
    (stored : option ReqFile) (ps : list (string * FilePart)) (w : World) :
  Forall (fun x => has_file_name x.2 = false) ps ->
  multer_parts opts env field filesLeft stored ps w = (inr (Next stored), w).
Proof.
  induction 1 as [|[fieldname f] ps Hf _ IH]; [done|].
  cbn [multer_parts snd] in *. by rewrite Hf.
Qed.

(** On the body of a request with at most the part under "image", the
    route on whole bodies is [post_upload]. *)
Lemma post_upload_body_agrees (env : Env) (req : Request) (w : World) :
  (forall f, image req = Some f -> has_file_name f = true) ->
  post_upload_body env (multipart_of req) w = post_upload env req w.
Proof.
  intros Hname. unfold post_upload_body, post_upload, multer_single,
    multipart_of. cbn [body_url file_parts].
  destruct (image req) as [f|]; [|done].
  cbn [multer_parts]. rewrite (Hname f eq_refl). cbn [String.eqb Ascii.eqb].
  cbv [mbind M_bind mret M_ret console_log emit set_disk multer_abort].
  by destruct (fileFilter (upload env) f) as [[err|] [|]].
Qed.

(** The claim of C10 as it is worded, for every request without a file
    under the field "image", does not hold: when the file of the request
    is under another field, multer calls [next(err)] with 'Unexpected
    field', the handler is not entered (nothing is thrown or caught in it)
    and Express answers, not the [catch] block. *)
Lemma C10_counterexample :
  files_under "image" body_photo = [] /\
  post_upload_body (env_replying "yes") body_photo (boot ∅) =
    (inr (DefaultError UNEXPECTED_FIELD),
     mkWorld ∅ generationConfig
       [ (EvLog "POST /upload", ∅);
         (EvRespond (DefaultError UNEXPECTED_FIELD), ∅) ]) /\
  (post_upload_body (env_replying "yes") body_photo (boot ∅)).1 <>
    inr (Sent 500 PROCESSING_ERROR).
Proof.
  split; [reflexivity|]. split; [reflexivity|]. discriminate.
Qed.

(** C10 (amended): when the request carries no file at all (no part of
    its body has a file name, whatever its field), multer attaches no file
    object and the handler is entered with [req.file] undefined; it throws
    a TypeError when it reads [req.file.path]; that message does not
    contain "Only image files are allowed", and the response is status 500
    with "An error occurred while processing your image.", not a 400. *)
Theorem C10_no_file_at_all_is_a_500
    (env : Env) (m : Multipart) (w : World) :
  no_file m ->
  (multer_parts (upload env) env "image" 1 None (file_parts m) w).1 =
    inr (Next None) /\
  handler_body env None w = (inl (TypeError_undefined "path"), w) /\
  includes (message (TypeError_undefined "path"))
    "Only image files are allowed" = false /\
  (post_upload_body env m w).1 = inr (Sent 500 PROCESSING_ERROR) /\
  status_of (Sent 500 PROCESSING_ERROR) = 500 /\
  body_of (Sent 500 PROCESSING_ERROR) =
    Some "An error occurred while processing your image.".
Proof.
  intros Hno. split; [by rewrite multer_parts_no_file|].
  split; [reflexivity|]. split; [reflexivity|]. split; [|by split].
  unfold post_upload_body.
  cbv [mbind M_bind console_log emit]. cbn [disk config trace].
  rewrite multer_parts_no_file by exact Hno. run.
  change (includes _ _) with false. by run.
Qed.

Lemma C10_witness :
  no_file body_empty_field /\
  (post_upload_body (env_replying "yes") body_empty_field (boot ∅)).1 =
    inr (Sent 500 PROCESSING_ERROR).
Proof.
  assert (H : no_file body_empty_field) by (by repeat constructor).
  split; [exact H|].
  exact (proj1 (proj2 (proj2 (proj2
    (C10_no_file_at_all_is_a_500 (env_replying "yes") body_empty_field
       (boot ∅) H))))).
Defined.

(** ** The order of operations *)

Lemma staged_then_gone (p : string) (d : gset string) :
  p ∉ ({[ p ]} ∪ d) ∖ {[ p ]}.
Proof.
  intros [_ H]%elem_of_difference. apply H. by apply elem_of_singleton.
Qed.




(** ** A failing remote upload *)

(** The claim of C5 as it is worded, 500 for every failing remote upload,
    does not hold: the [catch] block looks at the message only, so an
    upload error whose message contains "Only image files are allowed" is
    answered with status 400. *)
Lemma C5_counterexample :
  staged (env_upload_failing (Error "Only image files are allowed"))
    (req_png 1024) (mkFilePart "moon.png" "image/png" 1024) /\
  remote_upload (env_upload_failing (Error "Only image files are allowed"))
    (mkFilePart "moon.png" "image/png" 1024) =
    inl (Error "Only image files are allowed") /\
  (post_upload (env_upload_failing (Error "Only image files are allowed"))
     (req_png 1024) (boot ∅)).1 = inr (Sent 400 INVALID_FILE_TYPE) /\
  (post_upload (env_upload_failing (Error "Only image files are allowed"))
     (req_png 1024) (boot ∅)).1 <> inr (Sent 500 PROCESSING_ERROR).
Proof.
  split; [by repeat split|]. split; [reflexivity|].
  split; [by vm_compute | by vm_compute].
Qed.

(** C5 (amended): when [uploadToGemini] throws, the response is status 500
    with "An error occurred while processing your image." unless the
    message of the error contains "Only image files are allowed", in which
    case it is status 400 with "Invalid file type. Please upload an
    image."; in both cases the handler does not call [fs.unlink] and the
    temp file is still on disk when the request ends. *)
Theorem C5_upload_failure
    (env : Env) (req : Request) (w : World) (f : FilePart) (e : JsError) :
  staged env req f ->
  remote_upload env f = inl e ->
  let p := staged_path env in
  let w' := (post_upload env req w).2 in
  (post_upload env req w).1 =
    inr (if includes (message e) "Only image files are allowed"
         then Sent 400 INVALID_FILE_TYPE else Sent 500 PROCESSING_ERROR) /\
  (exists tr,
     added w w' tr /\
     List.filter is_unlink (map fst tr) = [] /\
     phases tr = [Validate; Stage p; RemoteUpload p; Respond]) /\
  disk w' = {[ p ]} ∪ disk w /\
  p ∈ disk w'.
Proof.
  intros (Hf & Hm & Hs) Hup p w'. subst w'.
  rewrite (post_upload_accept _ _ _ f Hf Hm Hs). run.
  unfold remote_upload in Hup. rewrite Hup. run. fold p.
  destruct (includes (message e) "Only image files are allowed"); run; assoc.
  all: split; [reflexivity|].
  all: split; [eexists; split; [reflexivity | by split]|].
  all: split; [reflexivity|].
  all: apply elem_of_union; left; by apply elem_of_singleton.
Qed.

Lemma C5_witness :
  staged (env_upload_failing (Error "fetch failed")) (req_png 1024)
    (mkFilePart "moon.png" "image/png" 1024) /\
  (post_upload (env_upload_failing (Error "fetch failed"))
     (req_png 1024) (boot ∅)).1 = inr (Sent 500 PROCESSING_ERROR).
Proof.
  assert (H : staged (env_upload_failing (Error "fetch failed"))
                (req_png 1024) (mkFilePart "moon.png" "image/png" 1024))
    by (repeat split; reflexivity).
  split; [exact H|].
  exact (proj1 (C5_upload_failure _ _ (boot ∅) _ _ H eq_refl)).
Defined.

(** ** The chat session *)

Lemma serve_shape (rs : list (Env * Request)) (w : World) :
  exists rsp d tr,
    serve rs w = (inr rsp, mkWorld d (config w) (trace w ++ tr)) /\
    Forall (started_with (config w)) tr /\
    List.length rsp = List.length rs.
Proof.
  revert w. induction rs as [|[env req] rs IH]; intros w.
  - exists [], (disk w), []. rewrite app_nil_r. by destruct w.
  - destruct (post_upload_shape env req w) as (r & d & tr & Hr & Htr & _).
    destruct (IH (mkWorld d (config w) (trace w ++ tr)))
      as (rsp & d' & tr' & Hrs & Htr' & Hlen).
    exists (r :: rsp), d', (tr ++ tr'). cbn [serve config trace] in *.
    unfold mbind, M_bind at 1. rewrite Hr.
    unfold mbind, M_bind at 1. rewrite Hrs.
    rewrite app_assoc. split; [reflexivity|].
    split; [by apply Forall_app | by cbn; f_equal].
Qed.

(** C6: the configuration object is the same after any number of
    requests as when the process started, and every chat session started
    while serving them is given exactly temperature 1, topP 0.95, topK 40,
    maxOutputTokens 8192 and responseMimeType "text/plain". *)
Theorem C6_generation_config_is_fixed
    (files : gset string) (rs : list (Env * Request)) :
  let w' := (serve rs (boot files)).2 in
  config w' = config (boot files) /\
  config w' = mkGenerationConfig 1 0.95 40 8192 "text/plain" /\
  Forall (started_with (mkGenerationConfig 1 0.95 40 8192 "text/plain"))
    (trace w').
Proof.
  destruct (serve_shape rs (boot files)) as (rsp & d & tr & Hrs & Htr & _).
  cbn zeta. rewrite Hrs. cbn [snd config trace boot app] in *.
  by repeat split.
Qed.

(** C7: when a request reaches the chat, exactly one session is started,
    seeded with exactly one message of role "user" whose only part is a
    file reference with the MIME type and the URI of the remote file
    handle, and exactly one message is sent, the fixed prompt. *)
Theorem C7_one_seeded_session_one_prompt
    (env : Env) (req : Request) (w : World) (f : FilePart)
    (uploaded : RemoteFile) :
  staged env req f ->
  remote_upload env f = inr uploaded ->
  unlink_fault env (staged_path env) = None ->
  exists tr,
    added w (post_upload env req w).2 tr /\
    chat_events tr =
      [ EvStartChat
          {| chat_generationConfig := config w;
             history :=
               [ {| role := "user";
                    parts :=
                      [ fileData
                          {| fileData_mimeType := RemoteFile.mimeType uploaded;
                             fileUri := RemoteFile.uri uploaded |} ] |} ] |};
        EvSendMessage
          "Is this image of the moon? Give answer in yes or no only" ].
Proof.
  intros (Hf & Hm & Hs) Hup Hun.
  rewrite (post_upload_accept _ _ _ f Hf Hm Hs). run.
  unfold remote_upload in Hup. rewrite Hup. run.
  rewrite staged_on_disk, Hun. run. repeat oracle; assoc.
  all: eexists; split; [reflexivity|reflexivity].
Qed.

Lemma C7_witness :
  staged (env_replying "no") (req_png 1024)
    (mkFilePart "moon.png" "image/png" 1024) /\
  chat_events (trace (post_upload (env_replying "no") (req_png 1024) (boot ∅)).2) =
    [ EvStartChat
        (mkStartChatParams generationConfig
           [ mkContent "user"
               [ fileData (mkFileData "image/png" "https://files/abc") ] ]);
      EvSendMessage PROMPT ].
Proof.
  assert (H : staged (env_replying "no") (req_png 1024)
                (mkFilePart "moon.png" "image/png" 1024))
    by (repeat split; reflexivity).
  split; [exact H|].
  destruct (C7_one_seeded_session_one_prompt (env_replying "no")
              (req_png 1024) (boot ∅) _ _ H eq_refl eq_refl)
    as (tr & Hadd & Hchat).
  unfold added in Hadd. rewrite Hadd. exact Hchat.
Defined.

(** ** Start-up *)

Lemma listen_bound (env_PORT : option string) (w : World) :
  listen env_PORT true w =
    (inr tt,
     mkWorld (disk w) (config w)
       (trace w ++
          [ (EvListen (PORT env_PORT), disk w);
            (EvLog ("Server running on port " +:+ toString (PORT env_PORT)),
             disk w) ])).
Proof. unfold listen. run. by assoc. Qed.

(** C9: the server listens on the value of PORT when the variable is set
    (to a non-empty string; "8080" is port 8080) and on 3000 when it is
    unset, and once the socket is bound it logs "Server running on port "
    followed by that value. *)
Theorem C9_port (s : string) (w : World) :
  s <> EmptyString ->
  PORT (Some s) = JsString s /\
  PORT None = JsNumber 3000 /\
  port_number (PORT (Some "8080")) = Some 8080 /\
  port_number (PORT None) = Some 3000 /\
  (listen (Some s) true w).2 =
    mkWorld (disk w) (config w)
      (trace w ++ [ (EvListen (JsString s), disk w);
                    (EvLog ("Server running on port " +:+ s), disk w) ]) /\
  (listen None true w).2 =
    mkWorld (disk w) (config w)
      (trace w ++ [ (EvListen (JsNumber 3000), disk w);
                    (EvLog "Server running on port 3000", disk w) ]).
Proof.
  intros Hs.
  assert (HP : PORT (Some s) = JsString s) by (by destruct s).
  split; [exact HP|]. split; [reflexivity|].
  split; [reflexivity|]. split; [reflexivity|].
  rewrite !listen_bound, HP. by split.
Qed.

Lemma C9_witness :
  "8080" <> EmptyString /\
  PORT (Some "8080") = JsString "8080" /\
  (listen (Some "8080") true (boot ∅)).2 =
    mkWorld ∅ generationConfig
      [ (EvListen (JsString "8080"), ∅);
        (EvLog "Server running on port 8080", ∅) ].
Proof.
  assert (H : "8080" <> EmptyString) by discriminate.
  split; [exact H|].
  split; [exact (proj1 (C9_port "8080" (boot ∅) H))|].
  exact (proj1 (proj2 (proj2 (proj2 (proj2 (C9_port "8080" (boot ∅) H)))))).
Defined.

(** * Further properties of script.js *)

(** ** The file filter *)

(** The filter accepts a part exactly when its declared MIME type begins
    with "image/" (in this letter case, whatever the file is called and
    however large it is); every other part gets the error 'Only image
    files are allowed!'.  The filter never skips a part silently. *)
Theorem fileFilter_accepts_exactly_image_types (env : Env) (f : FilePart) :
  (fileFilter (upload env) f = (None, true) <->
     exists rest, mimetype f = "image/" +:+ rest) /\
  (fileFilter (upload env) f = (None, true) \/
   fileFilter (upload env) f =
     (Some (Error "Only image files are allowed!"), false)) /\
  fileFilter (upload env) f <> (None, false) /\
  fileFilter (upload env) (mkFilePart (originalname f) "IMAGE/PNG" (file_size f))
    = (Some (Error "Only image files are allowed!"), false) /\
  fileFilter (upload env) (mkFilePart (originalname f) "image/" (file_size f))
    = (None, true).
Proof.
  cbv [upload fileFilter]. unfold startsWith.
  split; [|split; [|split; [|by split]]].
  - etrans; [|apply prefix_spec].
    by destruct (String.prefix "image/" (mimetype f)).
  - destruct (String.prefix "image/" (mimetype f)); [by left | by right].
  - by destruct (String.prefix "image/" (mimetype f)).
Qed.

Lemma fileFilter_accepts_exactly_image_types_witness :
  fileFilter (upload (env_replying "no"))
    (mkFilePart "drawing.exe" "image/svg+xml" 7) = (None, true).
Proof.
  apply (proj1 (fileFilter_accepts_exactly_image_types (env_replying "no")
                  (mkFilePart "drawing.exe" "image/svg+xml" 7))).
  by exists "svg+xml".
Defined.

(** ** uploadToGemini *)

(** [uploadToGemini] hands on what the file store answered: it returns the
    very file handle and rethrows the very error.  It calls the store once,
    with the base name of the path as display name, then logs once (the
    upload, or the error), and it leaves the disk and the configuration as
    they were. *)
Theorem uploadToGemini_hands_on_the_answer
    (env : Env) (filePath mimeType : string) (w : World) :
  (uploadToGemini env filePath mimeType w).1 =
    uploadFile env filePath mimeType (basename filePath) /\
  (uploadToGemini env filePath mimeType w).2 =
    mkWorld (disk w) (config w)
      (trace w ++
         [ (EvUploadFile filePath mimeType (basename filePath), disk w);
           (match uploadFile env filePath mimeType (basename filePath) with
            | inr file =>
                EvLog ("Uploaded file " +:+ RemoteFile.displayName file
                       +:+ " as: " +:+ RemoteFile.name file)
            | inl e => EvError "Error uploading to Gemini:" e
            end, disk w) ]).
Proof.
  run. destruct (uploadFile env filePath mimeType (basename filePath));
    run; assoc; by split.
Qed.

(** ** The display name of the remote file *)

Lemma list_ascii_of_string_append (a b : string) :
  list_ascii_of_string (a +:+ b) =
    (list_ascii_of_string a ++ list_ascii_of_string b)%list.
Proof.
  induction a as [|c a IH]; [done|].
  rewrite append_cons. cbn [list_ascii_of_string app]. by rewrite IH.
Qed.

Lemma take_segment_stops (l r : list ascii) :
  forallb (fun c => negb (is_sep c)) l = true ->
  take_segment (l ++ "/"%char :: r) = l.
Proof.
  induction l as [|c l IH]; cbn [forallb app take_segment]; [done|].
  intros [Hc Hl]%andb_true_iff. apply negb_true_iff in Hc. rewrite Hc.
  by rewrite IH.
Qed.

Lemma drop_seps_keeps (l r : list ascii) :
  l <> [] ->
  forallb (fun c => negb (is_sep c)) l = true ->
  drop_seps (l ++ r) = (l ++ r)%list.
Proof.
  destruct l as [|c l]; [done|]. intros _. cbn [forallb app drop_seps].
  intros [Hc _]%andb_true_iff. apply negb_true_iff in Hc. by rewrite Hc.
Qed.

Lemma forallb_rev {A} (P : A -> bool) (l : list A) :
  forallb P l = true -> forallb P (rev l) = true.
Proof.
  rewrite !forallb_forall. intros H x Hx. apply H. by apply in_rev.
Qed.

(** [path.basename] undoes [path.join] on a plain file name. *)
Lemma basename_path_join (dir n : string) :
  plain_name n -> basename (path_join dir n) = n.
Proof.
  intros [Hne Hplain]. unfold basename, path_join.
  rewrite !list_ascii_of_string_append. cbn [list_ascii_of_string app].
  rewrite rev_app_distr. cbn [rev]. rewrite <- !app_assoc. cbn [app].
  assert (Hrev : rev (list_ascii_of_string n) <> []).
  { destruct n as [|c n]; [done|]. cbn [list_ascii_of_string rev].
    by destruct (rev (list_ascii_of_string n)). }
  rewrite drop_seps_keeps by (by try apply forallb_rev).
  rewrite take_segment_stops by (by apply forallb_rev).
  by rewrite rev_involutive, string_of_list_ascii_of_string.
Qed.

(** The file store is called once for a stored part, for the temporary
    file and with the declared MIME type; the display name it is given is
    the name multer drew for the temporary file, never the file name the
    client sent. *)
Theorem display_name_is_the_temporary_name
    (env : Env) (req : Request) (w : World) (f : FilePart) :
  staged env req f ->
  plain_name (filename env) ->
  exists tr,
    added w (post_upload env req w).2 tr /\
    List.filter is_uploadFile (map fst tr) =
      [ EvUploadFile (staged_path env) (mimetype f) (filename env) ].
Proof.
  intros (Hf & Hm & Hs) Hn.
  rewrite (post_upload_accept _ _ _ f Hf Hm Hs). run.
  unfold staged_path. rewrite (basename_path_join _ _ Hn).
  repeat oracle; assoc.
  all: eexists; split; reflexivity.
Qed.

Lemma display_name_is_the_temporary_name_witness :
  staged (env_replying "no") (req_png 1024)
    (mkFilePart "moon.png" "image/png" 1024) /\
  plain_name (filename (env_replying "no")) /\
  List.filter is_uploadFile
    (map fst (trace (post_upload (env_replying "no") (req_png 1024) (boot ∅)).2)) =
    [ EvUploadFile "/tmp/3f2a9c" "image/png" "3f2a9c" ].
Proof.
  assert (H : staged (env_replying "no") (req_png 1024)
                (mkFilePart "moon.png" "image/png" 1024))
    by (repeat split; reflexivity).
  assert (Hn : plain_name (filename (env_replying "no")))
    by (split; [discriminate | reflexivity]).
  split; [exact H|]. split; [exact Hn|].
  destruct (display_name_is_the_temporary_name (env_replying "no")
              (req_png 1024) (boot ∅) _ H Hn) as (tr & Hadd & Hup).
  unfold added in Hadd. rewrite Hadd. exact Hup.
Defined.

(** ** The failure paths of the handler *)

(** When the chat fails after the upload and the deletion succeeded
    ([sendMessage] rejects, or [response.text()] throws), the [catch]
    block answers according to the message of that error, and the
    temporary file has already been removed: a failed classification leaves
    no file behind. *)
Theorem chat_failure_leaves_no_file
    (env : Env) (req : Request) (w : World) (f : FilePart)
    (uploaded : RemoteFile) (e : JsError) :
  staged env req f ->
  remote_upload env f = inr uploaded ->
  unlink_fault env (staged_path env) = None ->
  chat_fails env w uploaded e ->
  (post_upload env req w).1 =
    inr (if includes (message e) MARKER
         then Sent 400 INVALID_FILE_TYPE else Sent 500 PROCESSING_ERROR) /\
  (staged_path env ∉ disk (snd (post_upload env req w))) /\
  exists tr,
    added w (snd (post_upload env req w)) tr /\
    phases tr = [Validate; Stage (staged_path env);
                 RemoteUpload (staged_path env);
                 DeleteTemp (staged_path env); ChatCall; Respond].
Proof.
  intros (Hf & Hm & Hs) Hup Hun Hchat.
  pose proof (staged_then_gone (staged_path env) (disk w)) as Hgone.
  rewrite (post_upload_accept _ _ _ f Hf Hm Hs). run.
  unfold remote_upload in Hup. rewrite Hup. run.
  rewrite staged_on_disk, Hun. run.
  unfold chat_fails, seeded_history, MARKER in *.
  destruct Hchat as [Hsend | (result & Hsend & Htxt)]; rewrite Hsend; run.
  2: rewrite Htxt; run.
  all: destruct (includes (message e) _); run; assoc.
  all: split; [reflexivity|]; split; [exact Hgone|].
  all: eexists; split; reflexivity.
Qed.

Lemma chat_failure_leaves_no_file_witness :
  staged (env_chat_failing (Error "quota exceeded")) (req_png 1024)
    (mkFilePart "moon.png" "image/png" 1024) /\
  (post_upload (env_chat_failing (Error "quota exceeded")) (req_png 1024)
     (boot ∅)).1 = inr (Sent 500 PROCESSING_ERROR).
Proof.
  assert (H : staged (env_chat_failing (Error "quota exceeded"))
                (req_png 1024) (mkFilePart "moon.png" "image/png" 1024))
    by (repeat split; reflexivity).
  split; [exact H|].
  exact (proj1 (chat_failure_leaves_no_file _ _ (boot ∅) _ _
                  (Error "quota exceeded") H eq_refl eq_refl
                  (or_introl eq_refl))).
Defined.

(** When [fs.unlink] rejects after a successful upload, the [catch] block
    answers according to the message of that error, no chat session is
    started and no message is sent, and the temporary file is still on
    disk when the request ends. *)
Theorem unlink_failure_stops_before_the_chat
    (env : Env) (req : Request) (w : World) (f : FilePart)
    (uploaded : RemoteFile) (e : JsError) :
  staged env req f ->
  remote_upload env f = inr uploaded ->
  unlink_fault env (staged_path env) = Some e ->
  (post_upload env req w).1 =
    inr (if includes (message e) MARKER
         then Sent 400 INVALID_FILE_TYPE else Sent 500 PROCESSING_ERROR) /\
  disk (post_upload env req w).2 = {[ staged_path env ]} ∪ disk w /\
  exists tr,
    added w (post_upload env req w).2 tr /\
    chat_events tr = [] /\
    (EvLog ("Deleted temp file: " +:+ staged_path env)) ∉ map fst tr.
Proof.
  intros (Hf & Hm & Hs) Hup Hun.
  rewrite (post_upload_accept _ _ _ f Hf Hm Hs). run.
  unfold remote_upload in Hup. rewrite Hup. run.
  rewrite staged_on_disk, Hun. run. unfold MARKER.
  destruct (includes (message e) _); run; assoc.
  all: split; [reflexivity|]; split; [reflexivity|].
  all: eexists; split; [reflexivity|]; split; [reflexivity|].
  all: cbn [map fst]; rewrite !not_elem_of_cons; repeat split; try done.
  all: apply not_elem_of_nil.
Qed.

Lemma unlink_failure_stops_before_the_chat_witness :
  staged (env_unlink_failing (Error "EPERM: operation not permitted"))
    (req_png 1024) (mkFilePart "moon.png" "image/png" 1024) /\
  (post_upload (env_unlink_failing (Error "EPERM: operation not permitted"))
     (req_png 1024) (boot ∅)).1 = inr (Sent 500 PROCESSING_ERROR).
Proof.
  assert (H : staged (env_unlink_failing
                        (Error "EPERM: operation not permitted"))
                (req_png 1024) (mkFilePart "moon.png" "image/png" 1024))
    by (repeat split; reflexivity).
  split; [exact H|].
  exact (proj1 (unlink_failure_stops_before_the_chat _ _ (boot ∅) _ _
                  (Error "EPERM: operation not permitted") H eq_refl
                  eq_refl)).
Defined.

(** ** What a request can be answered with *)



(** Whatever file the handler is entered with and whatever the file
    store, the file system and the model return, an answer of the handler
    is one of four: the page, the redirect, or one of the two fixed error
    texts of the [catch] block.  Neither the reply of the model nor the
    message of an error is ever sent to the client by the handler. *)
Theorem handler_answers_are_fixed
    (env : Env) (file : option ReqFile) (w : World) (r : Response) :
  (handler env file w).1 = inr r ->
  r = Sent 200 page \/
  r = Redirect "/" \/
  r = Sent 400 INVALID_FILE_TYPE \/
  r = Sent 500 PROCESSING_ERROR.
Proof.
  destruct file as [f|]; run; repeat oracle; cbn [fst].
  all: intros [= <-]; tauto.
Qed.

Lemma handler_answers_are_fixed_witness :
  (handler (env_replying "Maybe. Here is why: ...")
     (Some (mkReqFile (mkFilePart "moon.png" "image/png" 1024) "/tmp/3f2a9c"))
     (boot {[ "/tmp/3f2a9c" ]})).1 = inr (Redirect "/") /\
  (Redirect "/" = Sent 200 page \/
   Redirect "/" = Redirect "/" \/
   Redirect "/" = Sent 400 INVALID_FILE_TYPE \/
   Redirect "/" = Sent 500 PROCESSING_ERROR).
Proof.
  assert (H : (handler (env_replying "Maybe. Here is why: ...")
                 (Some (mkReqFile (mkFilePart "moon.png" "image/png" 1024)
                          "/tmp/3f2a9c"))
                 (boot {[ "/tmp/3f2a9c" ]})).1 = inr (Redirect "/"))
    by reflexivity.
  split; [exact H|].
  exact (handler_answers_are_fixed _ _ _ _ H).
Defined.

(** Status 400 is out of reach for a request unless the file store, the
    file system or the model raises an error whose own message contains the
    marker: no upload, of whatever type or size, is answered with 400
    otherwise. *)
Theorem no_400_without_foreign_marker (env : Env) (req : Request) (w : World) :
  marker_free env ->
  exists r, (post_upload env req w).1 = inr r /\ status_of r <> 400.
Proof.
  intros (Hup & Hun & Hsend & Htxt). unfold MARKER in *.
  run. repeat oracle.
  all: eexists; split; [reflexivity|]; cbn [status_of]; try done.
  all: exfalso.
  all: match goal with
       | Hd : bool_decide _ = false |- _ => by rewrite staged_on_disk in Hd
       | Hi : includes (message ?e) ?m = true |- _ =>
           first [ assert (includes (message e) m = false) by eauto;
                   congruence
                 | by vm_compute in Hi ]
       end.
Qed.

Lemma no_400_without_foreign_marker_witness :
  marker_free (env_replying "no") /\
  exists r,
    (post_upload (env_replying "no") req_txt (boot ∅)).1 = inr r /\
    status_of r <> 400.
Proof.
  assert (H : marker_free (env_replying "no")).
  { repeat split; intros; simplify_eq/=. }
  split; [exact H|].
  exact (no_400_without_foreign_marker (env_replying "no") req_txt (boot ∅) H).
Defined.

(** ** The temporary files *)

(** What a request does to the disk: nothing, or it leaves its temporary
    file, or it stores and removes it. *)
Lemma post_upload_disk (env : Env) (req : Request) (w : World) :
  let d' := disk (snd (post_upload env req w)) in
  d' = disk w \/
  d' = {[ staged_path env ]} ∪ disk w \/
  d' = ({[ staged_path env ]} ∪ disk w) ∖ {[ staged_path env ]}.
Proof.
  run. repeat oracle; cbn [disk snd]; tauto.
Qed.

(** A request touches no file but its own temporary file: every other
    path is on disk after the request exactly when it was before. *)
Theorem other_files_are_untouched
    (env : Env) (req : Request) (w : World) (q : string) :
  q <> staged_path env ->
  q ∈ disk (snd (post_upload env req w)) <-> q ∈ disk w.
Proof.
  intros Hq.
  destruct (post_upload_disk env req w) as [H | [H | H]]; rewrite H.
  - done.
  - rewrite elem_of_union, elem_of_singleton. tauto.
  - rewrite elem_of_difference, elem_of_union, elem_of_singleton. tauto.
Qed.

Lemma other_files_are_untouched_witness :
  "/tmp/other" <> staged_path (env_upload_failing (Error "fetch failed")) /\
  ("/tmp/other" ∈
     disk (snd (post_upload (env_upload_failing (Error "fetch failed"))
                  (req_png 1024) (boot {[ "/tmp/other" ]}))) <->
   "/tmp/other" ∈ disk (boot {[ "/tmp/other" ]})).
Proof.
  assert (H : "/tmp/other" <>
              staged_path (env_upload_failing (Error "fetch failed")))
    by discriminate.
  split; [exact H|].
  exact (other_files_are_untouched _ (req_png 1024)
           (boot {[ "/tmp/other" ]}) "/tmp/other" H).
Defined.

(** A request that is answered with the page or with the redirect leaves
    no temporary file: its file is not on disk afterwards, and the disk is
    what it was before, without that path. *)
Theorem answered_requests_leave_no_file
    (env : Env) (req : Request) (w : World) :
  (post_upload env req w).1 = inr (Sent 200 page) \/
  (post_upload env req w).1 = inr (Redirect "/") ->
  (staged_path env ∉ disk (snd (post_upload env req w))) /\
  disk (snd (post_upload env req w)) = disk w ∖ {[ staged_path env ]}.
Proof.
  assert (Hd : ({[ staged_path env ]} ∪ disk w) ∖ {[ staged_path env ]}
               = disk w ∖ {[ staged_path env ]}).
  { apply set_eq. intros x.
    rewrite !elem_of_difference, elem_of_union, elem_of_singleton. tauto. }
  pose proof (staged_then_gone (staged_path env) (disk w)) as Hgone.
  revert Hd Hgone. unfold staged_path. run. intros Hd Hgone.
  repeat oracle; cbn [fst snd disk].
  all: intros [H | H]; try discriminate H.
  all: by split.
Qed.

Lemma answered_requests_leave_no_file_witness :
  (post_upload (env_replying "no") (req_png 1024) (boot {[ "/tmp/other" ]})).1
    = inr (Redirect "/") /\
  disk (snd (post_upload (env_replying "no") (req_png 1024)
               (boot {[ "/tmp/other" ]}))) =
    {[ "/tmp/other" ]} ∖ {[ "/tmp/3f2a9c" ]}.
Proof.
  split; [reflexivity|].
  exact (proj2 (answered_requests_leave_no_file (env_replying "no")
                  (req_png 1024) (boot {[ "/tmp/other" ]})
                  (or_intror eq_refl))).
Defined.

(** ** Only a classified request is answered with the page or the redirect *)

(** The page is sent only when an image was stored, uploaded and deleted
    and the model's reply, lower-cased, contains "yes"; the redirect only
    when all of that succeeded and the reply does not contain it.  No
    failure is ever answered with either of them. *)
Theorem page_and_redirect_need_a_reply
    (env : Env) (req : Request) (w : World) :
  (post_upload env req w).1 = inr (Sent 200 page) \/
  (post_upload env req w).1 = inr (Redirect "/") ->
  exists uploaded reply,
    classified env req w uploaded reply /\
    (post_upload env req w).1 =
      inr (if includes (toLowerCase reply) "yes"
           then Sent 200 page else Redirect "/").
Proof.
  unfold classified, staged, remote_upload, seeded_history, staged_path.
  run. repeat oracle; cbn [fst].
  all: intros [H | H]; try discriminate H.
  all: match goal with
       | Hd : bool_decide _ = false |- _ => by rewrite staged_on_disk in Hd
       | _ => idtac
       end.
  all: match goal with
       | Hu : uploadFile _ _ _ _ = inr ?t, Ht : response_text _ = inr ?s
         |- _ => exists t, s
       end.
  all: match goal with
       | Hi : includes _ _ = _ |- _ => rewrite Hi
       end.
  all: split; [|reflexivity].
  all: eexists _, _; repeat split; eauto.
Qed.

Lemma page_and_redirect_need_a_reply_witness :
  (post_upload (env_replying "YES!") (req_png 1024) (boot ∅)).1 =
    inr (Sent 200 page) /\
  exists uploaded reply,
    classified (env_replying "YES!") (req_png 1024) (boot ∅) uploaded reply.
Proof.
  assert (Hr : (post_upload (env_replying "YES!") (req_png 1024) (boot ∅)).1
               = inr (Sent 200 page)) by reflexivity.
  split; [exact Hr|].
  destruct (page_and_redirect_need_a_reply (env_replying "YES!")
              (req_png 1024) (boot ∅) (or_introl Hr))
    as (uploaded & reply & H & _).
  by exists uploaded, reply.
Defined.

(** ** Requests do not influence one another *)

(** The response to a request does not depend on the files on disk or on
    anything that happened before: two worlds with the same configuration
    give the same response. *)
Theorem response_ignores_history
    (env : Env) (req : Request) (w1 w2 : World) :
  config w1 = config w2 ->
  (post_upload env req w1).1 = (post_upload env req w2).1.
Proof.
  intros Hc. run.
  repeat first [ rewrite !staged_on_disk; cbv beta iota
               | rewrite Hc
               | oracle ].
  all: reflexivity.
Qed.

Lemma response_ignores_history_witness :
  config (boot ∅) = config (boot {[ "/tmp/3f2a9c" ]}) /\
  (post_upload (env_replying "yes") (req_png 1024) (boot ∅)).1 =
  (post_upload (env_replying "yes") (req_png 1024)
     (boot {[ "/tmp/3f2a9c" ]})).1.
Proof.
  assert (H : config (boot ∅) = config (boot {[ "/tmp/3f2a9c" ]}))
    by (cbn; reflexivity).
  split; [exact H|].
  exact (response_ignores_history (env_replying "yes") (req_png 1024)
           (boot ∅) (boot {[ "/tmp/3f2a9c" ]}) H).
Defined.

(** Served one after the other by one process, every request is answered
    as it would be by a process that has just started: no state carries
    over from one request to the next. *)
Theorem serve_is_stateless (files : gset string) (rs : list (Env * Request)) :
  exists rsp,
    (serve rs (boot files)).1 = inr rsp /\
    Forall2 (fun x r => (post_upload x.1 x.2 (boot ∅)).1 = inr r) rs rsp.
Proof.
  assert (H : forall w, config w = generationConfig ->
            exists rsp,
              (serve rs w).1 = inr rsp /\
              Forall2 (fun x r => (post_upload x.1 x.2 (boot ∅)).1 = inr r)
                rs rsp).
  { induction rs as [|[env req] rs IH]; intros w Hw.
    - exists []. by split.
    - destruct (post_upload_shape env req w) as (r & d & tr & Hr & _).
      destruct (IH (mkWorld d (config w) (trace w ++ tr)) Hw)
        as (rsp & Hrs & Hall).
      exists (r :: rsp). cbn [serve]. unfold mbind, M_bind at 1. rewrite Hr.
      unfold mbind, M_bind at 1.
      destruct (serve rs _) as [[e | rsp'] w'] eqn:E; cbn [fst] in Hrs;
        [done|]. injection Hrs as ->. split; [reflexivity|].
      constructor; [|exact Hall]. cbn [fst snd].
      rewrite (response_ignores_history env req (boot ∅) w) by done.
      by rewrite Hr. }
  by apply H.
Qed.

(** ** The letter case of the reply *)

Lemma toLowerCase_append (a b : string) :
  toLowerCase (a +:+ b) = toLowerCase a +:+ toLowerCase b.
Proof.
  induction a as [|c a IH]; [done|].
  rewrite append_cons. cbn [toLowerCase]. by rewrite IH, append_cons.
Qed.

Lemma classified_response
    (env : Env) (req : Request) (w : World) (uploaded : RemoteFile)
    (reply : string) :
  classified env req w uploaded reply ->
  (post_upload env req w).1 =
    inr (if includes (toLowerCase reply) "yes"
         then Sent 200 page else Redirect "/").
Proof.
  intros (f & result & (Hf & Hm & Hs) & Hup & Hun & Hchat & Htxt).
  rewrite (post_upload_accept _ _ _ f Hf Hm Hs). run.
  unfold remote_upload in Hup. rewrite Hup. run.
  rewrite staged_on_disk, Hun. run.
  unfold seeded_history in Hchat. rewrite Hchat. run. rewrite Htxt. run.
  by destruct (includes (toLowerCase reply) "yes").
Qed.

(** The test of the reply is blind to letter case: a reply that contains
    "yes" written in any mix of upper and lower case, anywhere and among
    whatever other text, is answered with the page. *)
Theorem yes_in_any_letter_case_is_positive
    (env : Env) (req : Request) (w : World) (uploaded : RemoteFile)
    (reply v : string) :
  classified env req w uploaded reply ->
  toLowerCase v = "yes" ->
  contains reply v ->
  (post_upload env req w).1 = inr (Sent 200 page).
Proof.
  intros Hc Hv (a & b & ->).
  rewrite (classified_response _ _ _ _ _ Hc).
  assert (H : includes (toLowerCase (a +:+ v +:+ b)) "yes" = true).
  { apply includes_spec. rewrite !toLowerCase_append, Hv.
    by exists (toLowerCase a), (toLowerCase b). }
  by rewrite H.
Qed.

Lemma yes_in_any_letter_case_is_positive_witness :
  toLowerCase "yEs" = "yes" /\
  contains "Oh yEs, it is" "yEs" /\
  (post_upload (env_replying "Oh yEs, it is") (req_png 1024) (boot ∅)).1 =
    inr (Sent 200 page).
Proof.
  assert (Hc : classified (env_replying "Oh yEs, it is") (req_png 1024)
                 (boot ∅)
                 (RemoteFile.mk "3f2a9c" "files/abc" "image/png"
                    "https://files/abc") "Oh yEs, it is").
  { do 2 eexists. repeat split; reflexivity. }
  assert (Hs : contains "Oh yEs, it is" "yEs")
    by (by exists "Oh ", ", it is").
  split; [reflexivity|]. split; [exact Hs|].
  exact (yes_in_any_letter_case_is_positive _ _ _ _ _ "yEs" Hc eq_refl Hs).
Defined.

(** ** Requests that never reach the file store *)

(** Unless multer stored an image for the request (a part of an image
    type within the size limit), nothing is sent to Gemini: no file is
    uploaded, no chat session is started and no message is sent. *)
Theorem gemini_is_called_for_stored_images_only
    (env : Env) (req : Request) (w : World) :
  (forall f, ~ staged env req f) ->
  exists tr,
    added w (snd (post_upload env req w)) tr /\
    List.filter is_remote (map fst tr) = [].
Proof.
  intros Hno. unfold staged in Hno.
  destruct (image req) as [f|] eqn:Hf.
  - destruct (startsWith (mimetype f) "image/") eqn:Hm.
    + destruct (within_limit (upload env) f) eqn:Hs.
      * by destruct (Hno f).
      * rewrite (post_upload_reject_size _ _ _ f Hf Hm Hs).
        eexists; split; reflexivity.
    + rewrite (post_upload_reject_mime _ _ _ f Hf Hm).
      eexists; split; reflexivity.
  - rewrite (post_upload_no_file _ _ _ Hf). eexists; split; reflexivity.
Qed.

Lemma gemini_is_called_for_stored_images_only_witness :
  (forall f, ~ staged (env_replying "yes") (req_png 6000000) f) /\
  exists tr,
    added (boot ∅)
      (snd (post_upload (env_replying "yes") (req_png 6000000) (boot ∅))) tr /\
    List.filter is_remote (map fst tr) = [].
Proof.
  assert (H : forall f, ~ staged (env_replying "yes") (req_png 6000000) f).
  { intros f (Hf & _ & Hs). injection Hf as <-. discriminate Hs. }
  split; [exact H|].
  exact (gemini_is_called_for_stored_images_only _ _ (boot ∅) H).
Defined.

(** ** The files a process leaves behind *)

Lemma serve_disk (rs : list (Env * Request)) (w : World) (q : string) :
  q ∈ disk (snd (serve rs w)) ->
  q ∈ disk w \/ exists x, x ∈ rs /\ q = staged_path x.1.
Proof.
  revert w. induction rs as [|[env req] rs IH]; intros w.
  - intros H. by left.
  - destruct (post_upload_shape env req w) as (r & d & tr & Hr & _).
    pose proof (post_upload_disk env req w) as Hd.
    rewrite Hr in Hd. cbn [snd disk] in Hd.
    assert (Hsnd : snd (serve ((env, req) :: rs) w) =
                   snd (serve rs (mkWorld d (config w) (trace w ++ tr)))).
    { cbn [serve]. unfold mbind, M_bind. rewrite Hr.
      by destruct (serve rs _) as [[?|?] ?]. }
    rewrite Hsnd. intros Hq.
    apply IH in Hq as [Hin | (x & Hx & ->)].
    + cbn [disk] in Hin.
      assert (Hp : q = staged_path env \/ q ∈ disk w).
      { destruct Hd as [-> | [-> | ->]].
        - by right.
        - apply elem_of_union in Hin as [Hin%elem_of_singleton | Hin]; tauto.
        - apply elem_of_difference in Hin as [Hin _].
          apply elem_of_union in Hin as [Hin%elem_of_singleton | Hin]; tauto. }
      destruct Hp as [-> | Hp]; [right | by left].
      exists (env, req). split; [apply list_elem_of_here | done].
    + right. exists x. split; [by apply list_elem_of_further | done].
Qed.

(** Whatever requests a process has served and however they ended, the
    only files it can have added to the disk are temporary files of those
    requests. *)
Theorem only_temporary_files_are_left
    (files : gset string) (rs : list (Env * Request)) (q : string) :
  q ∈ disk (snd (serve rs (boot files))) ->
  q ∈ files \/ exists x, x ∈ rs /\ q = staged_path x.1.
Proof. apply serve_disk. Qed.

Lemma only_temporary_files_are_left_witness :
  "/tmp/3f2a9c" ∈
    disk (snd (serve [ (env_upload_failing (Error "fetch failed"),
                        req_png 1024) ] (boot ∅))) /\
  ("/tmp/3f2a9c" ∈ (∅ : gset string) \/
   exists x,
     x ∈ [ (env_upload_failing (Error "fetch failed"), req_png 1024) ] /\
     "/tmp/3f2a9c" = staged_path x.1).
Proof.
  assert (H : "/tmp/3f2a9c" ∈
                disk (snd (serve [ (env_upload_failing (Error "fetch failed"),
                                    req_png 1024) ] (boot ∅)))).
  { apply (bool_decide_unpack _). by vm_compute. }
  split; [exact H|].
  exact (only_temporary_files_are_left ∅ _ "/tmp/3f2a9c" H).
Defined.

(** ** The port *)

(** The default port is taken exactly when PORT is unset or empty; any
    other value of PORT is what is passed to [listen], as the string it
    is, "0" included. *)
Theorem port_defaults_only_when_unset_or_empty (env_PORT : option string) :
  (PORT env_PORT = JsNumber 3000 <->
     env_PORT = None \/ env_PORT = Some EmptyString) /\
  (forall s, PORT env_PORT = JsString s <->
     env_PORT = Some s /\ s <> EmptyString) /\
  (forall n, PORT env_PORT = JsNumber n -> n = 3000) /\
  PORT (Some "0") = JsString "0".
Proof.
  split; [|split; [|split; [|reflexivity]]].
  - destruct env_PORT as [[|c s]|]; cbn [PORT].
    + split; [by right | done].
    + split; [done | intros [H | H]; discriminate H].
    + split; [by left | done].
  - intros s. destruct env_PORT as [[|c s']|]; cbn [PORT].
    + split; [done | intros [[= <-] Hne]; by destruct Hne].
    + split; [by intros [= <-] | by intros [[= <-] _]].
    + split; [done | by intros [H _]].
  - intros n. destruct env_PORT as [[|c s]|]; cbn [PORT]; by intros [= <-].
Qed.

Lemma port_defaults_only_when_unset_or_empty_witness :
  PORT (Some EmptyString) = JsNumber 3000.
Proof.
  apply (proj2 (proj1 (port_defaults_only_when_unset_or_empty
                         (Some EmptyString)))).
  by right.
Defined.

(** ** Logging *)

(** The first middleware logs the request line before anything else
    happens to the request, also for the requests that multer rejects and
    for those without a file. *)
Theorem request_line_is_logged_first (env : Env) (req : Request) (w : World) :
  exists tr,
    added w (snd (post_upload env req w))
      ((EvLog ("POST " +:+ url req), disk w) :: tr).
Proof.
  unfold added. run. repeat oracle; assoc.
  all: eexists; reflexivity.
Qed.

(** No error is answered silently by the handler: whenever the response
    is one of the error texts of the [catch] block, the last thing before
    it was a [console.error] of the error that was caught, and the
    response is the one that belongs to the message of that error. *)
Theorem caught_errors_are_logged
    (env : Env) (req : Request) (w : World) (c : Z) (b : string) :
  (post_upload env req w).1 = inr (Sent c b) ->
  c <> 200 ->
  exists e tr earlier,
    added w (snd (post_upload env req w)) tr /\
    rev (map fst tr) =
      EvRespond (Sent c b) :: EvError "Error processing upload:" e :: earlier /\
    Sent c b =
      (if includes (message e) MARKER
       then Sent 400 INVALID_FILE_TYPE else Sent 500 PROCESSING_ERROR).
Proof.
  unfold added, MARKER. run. repeat oracle; assoc; cbn [fst snd trace].
  all: intros [= <- <-] Hc; try done.
  all: match goal with
       | Hi : includes (message ?e) _ = _ |- _ =>
           exists e; rewrite Hi
       end.
  all: eexists _, _; split; [reflexivity|]; split; reflexivity.
Qed.

Lemma caught_errors_are_logged_witness :
  (post_upload (env_upload_failing (Error "fetch failed")) (req_png 1024)
     (boot ∅)).1 = inr (Sent 500 PROCESSING_ERROR) /\
  exists e tr earlier,
    added (boot ∅)
      (snd (post_upload (env_upload_failing (Error "fetch failed"))
              (req_png 1024) (boot ∅))) tr /\
    rev (map fst tr) =
      EvRespond (Sent 500 PROCESSING_ERROR)
      :: EvError "Error processing upload:" e :: earlier /\
    Sent 500 PROCESSING_ERROR =
      (if includes (message e) MARKER
       then Sent 400 INVALID_FILE_TYPE else Sent 500 PROCESSING_ERROR).
Proof.
  assert (H : (post_upload (env_upload_failing (Error "fetch failed"))
                 (req_png 1024) (boot ∅)).1 = inr (Sent 500 PROCESSING_ERROR))
    by reflexivity.
  split; [exact H|].
  exact (caught_errors_are_logged _ _ (boot ∅) 500 PROCESSING_ERROR H
           ltac:(discriminate)).
Defined.
